(** * Telco churn dashboard (app.py): a shallow embedding

    The script is a Streamlit page: it loads a pickled scikit-learn pipeline,
    reads twenty form widgets, and on a button press builds a one-row
    DataFrame, calls the pipeline and shows a verdict.  A PDF renderer,
    [generate_pdf], is defined next to it.

    Modelling choices:
    - Python values are the inductive [pyval]; Python floats are IEEE
      binary64, i.e. Rocq's primitive [float].
    - A dict is an association list in insertion order (the order in which
      [items()] yields it).
    - Calls into streamlit, joblib, the pipeline and FPDF are effects: they
      are recorded, in program order, in a trace of [event]s.  Of FPDF the
      model keeps the calls it accepts, the file it writes, and its refusal
      of text that the latin-1 core fonts cannot encode; font metrics and
      page layout are outside the model.
    - Strings hold UTF-8 bytes.
    - Exceptions are explicit: a computation returns [Ret] or [Raise]. *)

From Stdlib Require Import ZArith String List Lia Ascii Bool.
From Stdlib Require Import Floats.PrimFloat.
From Stdlib Require Import Numbers.DecimalString.
From Stdlib Require Import Sorting.Permutation.
Import ListNotations.
Open Scope string_scope.
Open Scope Z_scope.

(** ** Python values *)

Inductive pyval : Type :=
| PNone
| PBool (b : bool)
| PInt (z : Z)
| PFloat (f : float)
| PStr (s : string).

(** [v == 1] for a scalar [v] (Python's numeric tower: [True == 1] and
    [1.0 == 1] hold, a string or [None] never equals 1). *)
Definition py_eq_1 (v : pyval) : bool :=
  match v with
  | PNone => false
  | PBool b => b
  | PInt z => z =? 1
  | PFloat f => PrimFloat.eqb f 1%float
  | PStr _ => false
  end.

(** Truth value of a string: [not s] holds exactly for the empty string. *)
Definition py_not_str (s : string) : bool :=
  match s with EmptyString => true | String _ _ => false end.

(** ** Dicts as insertion-ordered association lists *)

Definition dict := list (string * pyval).

Definition keys (d : dict) : list string := map fst d.
Definition values (d : dict) : list pyval := map snd d.

Fixpoint get (k : string) (d : dict) : option pyval :=
  match d with
  | [] => None
  | (k', v) :: d' => if String.eqb k k' then Some v else get k d'
  end.

(** ** The form: the module-level variables the widgets assign (lines 22-55) *)

Record form := {
  customer_id : string;        (* st.text_input, default "" *)
  gender : string;
  senior_citizen : string;     (* "No" / "Yes", mapped to 0/1 below *)
  partner : string;
  dependents : string;
  tenure : Z;                  (* st.number_input with integer bounds *)
  phone_service : string;
  multiple_lines : string;
  internet_service : string;
  online_security : string;
  online_backup : string;
  device_protection : string;
  tech_support : string;
  streaming_tv : string;
  streaming_movies : string;
  contract : string;
  paperless_billing : string;
  payment_method : string;
  monthly_charges : float;     (* st.number_input with float bounds *)
  total_charges : float
}.

(** The options each selectbox offers, and the bounds of the number inputs. *)
Definition valid_form (f : form) : Prop :=
  In (gender f) ["Male"; "Female"] /\
  In (senior_citizen f) ["No"; "Yes"] /\
  In (partner f) ["No"; "Yes"] /\
  In (dependents f) ["No"; "Yes"] /\
  0 <= tenure f <= 100 /\
  In (phone_service f) ["No"; "Yes"] /\
  In (multiple_lines f) ["No"; "Yes"; "No phone service"] /\
  In (internet_service f) ["DSL"; "Fiber optic"; "No"] /\
  In (online_security f) ["No"; "Yes"; "No internet service"] /\
  In (online_backup f) ["No"; "Yes"; "No internet service"] /\
  In (device_protection f) ["No"; "Yes"; "No internet service"] /\
  In (tech_support f) ["No"; "Yes"; "No internet service"] /\
  In (streaming_tv f) ["No"; "Yes"; "No internet service"] /\
  In (streaming_movies f) ["No"; "Yes"; "No internet service"] /\
  In (contract f) ["Month-to-month"; "One year"; "Two year"] /\
  In (paperless_billing f) ["No"; "Yes"] /\
  In (payment_method f)
     ["Electronic check"; "Mailed check"; "Bank transfer (automatic)";
      "Credit card (automatic)"].

(** ** DataFrames *)

(** A frame has row labels, column labels and its cells row by row. *)
Record DataFrame := {
  df_index : list pyval;
  df_columns : list pyval;
  df_rows : list (list pyval)
}.

(** [pd.DataFrame([data])]: one row labelled 0, one column per key. *)
Definition DataFrame_of_record (data : dict) : DataFrame :=
  {| df_index := [PInt 0];
     df_columns := map PStr (keys data);
     df_rows := [values data] |}.

(** The dict literal of [build_input_df] (lines 59-81). *)
Definition input_data (f : form) : dict :=
  [ ("customerID", PStr (customer_id f));
    ("gender", PStr (gender f));
    ("SeniorCitizen", PInt (if String.eqb (senior_citizen f) "Yes" then 1 else 0));
    ("Partner", PStr (partner f));
    ("Dependents", PStr (dependents f));
    ("tenure", PInt (tenure f));
    ("PhoneService", PStr (phone_service f));
    ("MultipleLines", PStr (multiple_lines f));
    ("InternetService", PStr (internet_service f));
    ("OnlineSecurity", PStr (online_security f));
    ("OnlineBackup", PStr (online_backup f));
    ("DeviceProtection", PStr (device_protection f));
    ("TechSupport", PStr (tech_support f));
    ("StreamingTV", PStr (streaming_tv f));
    ("StreamingMovies", PStr (streaming_movies f));
    ("Contract", PStr (contract f));
    ("PaperlessBilling", PStr (paperless_billing f));
    ("PaymentMethod", PStr (payment_method f));
    ("MonthlyCharges", PFloat (monthly_charges f));
    ("TotalCharges", PFloat (total_charges f)) ].

Definition build_input_df (f : form) : DataFrame :=
  DataFrame_of_record (input_data f).

(** The single record a one-row frame holds, as a dict again
    (column label, cell) in column order. *)
Fixpoint zip_labels (cols : list pyval) (cells : list pyval) : dict :=
  match cols, cells with
  | PStr c :: cols', v :: cells' => (c, v) :: zip_labels cols' cells'
  | _ :: cols', _ :: cells' => zip_labels cols' cells'
  | _, _ => []
  end.

Definition records (X : DataFrame) : list dict :=
  map (zip_labels (df_columns X)) (df_rows X).

(** The fixed schema: the column names of the Telco training data, as the
    specification's data model enumerates them (section 3, in its order). *)
Definition schema_fields : list string :=
  [ "customerID";
    "SeniorCitizen"; "Partner"; "Dependents"; "PhoneService"; "PaperlessBilling";
    "MultipleLines"; "InternetService";
    "OnlineSecurity"; "OnlineBackup"; "DeviceProtection"; "TechSupport";
    "StreamingTV"; "StreamingMovies";
    "Contract"; "PaymentMethod"; "gender";
    "tenure"; "MonthlyCharges"; "TotalCharges" ].

(** The column names in the order the code writes them. *)
Definition training_columns : list string :=
  [ "customerID"; "gender"; "SeniorCitizen"; "Partner"; "Dependents"; "tenure";
    "PhoneService"; "MultipleLines"; "InternetService"; "OnlineSecurity";
    "OnlineBackup"; "DeviceProtection"; "TechSupport"; "StreamingTV";
    "StreamingMovies"; "Contract"; "PaperlessBilling"; "PaymentMethod";
    "MonthlyCharges"; "TotalCharges" ].

(** ** Frame operations used by the predict handler (lines 128-130) *)

Fixpoint zip_cons (r : list pyval) (cols : list (list pyval)) : list (list pyval) :=
  match r, cols with
  | x :: r', c :: cols' => (x :: c) :: zip_cons r' cols'
  | _, _ => []
  end.

Definition transpose_cells (ncols : nat) (rows : list (list pyval)) : list (list pyval) :=
  fold_right zip_cons (repeat [] ncols) rows.

(** [X.T] *)
Definition T (X : DataFrame) : DataFrame :=
  {| df_index := df_columns X;
     df_columns := df_index X;
     df_rows := transpose_cells (length (df_columns X)) (df_rows X) |}.

Definition pyval_eqb (a b : pyval) : bool :=
  match a, b with
  | PNone, PNone => true
  | PBool x, PBool y => Bool.eqb x y
  | PInt x, PInt y => x =? y
  | PFloat x, PFloat y => PrimFloat.eqb x y
  | PStr x, PStr y => String.eqb x y
  | _, _ => false
  end.

(** [df.rename(columns={old: new})] *)
Definition rename_columns (old new : pyval) (X : DataFrame) : DataFrame :=
  {| df_index := df_index X;
     df_columns := map (fun c => if pyval_eqb c old then new else c) (df_columns X);
     df_rows := df_rows X |}.

(** [str.lower] on ASCII text. *)
Definition lower_ascii (c : ascii) : ascii :=
  let n := N_of_ascii c in
  if ((65 <=? n) && (n <=? 90))%N then ascii_of_N (n + 32) else c.

Fixpoint lower (s : string) : string :=
  match s with
  | EmptyString => EmptyString
  | String c s' => String (lower_ascii c) (lower s')
  end.

(** [index.str.lower().tolist()]: a label that is not a string gives NaN,
    which equals no string. *)
Definition index_str_lower (X : DataFrame) : list pyval :=
  map (fun l => match l with PStr s => PStr (lower s) | _ => PNone end) (df_index X).

(** [list.count] *)
Definition count (x : pyval) (l : list pyval) : Z :=
  Z.of_nat (length (filter (pyval_eqb x) l)).

Fixpoint drop_rows (label : pyval) (idx : list pyval) (rows : list (list pyval))
  : list pyval * list (list pyval) :=
  match idx, rows with
  | i :: idx', r :: rows' =>
      let (ix, rs) := drop_rows label idx' rows' in
      if pyval_eqb i label then (ix, rs) else (i :: ix, r :: rs)
  | _, _ => ([], [])
  end.

(** [df.drop(index=label, errors="ignore")] *)
Definition drop_index (label : pyval) (X : DataFrame) : DataFrame :=
  let (ix, rs) := drop_rows label (df_index X) (df_rows X) in
  {| df_index := ix; df_columns := df_columns X; df_rows := rs |}.

(** The table shown under "Input Summary" (lines 128-130). *)
Definition input_summary (f : form) (X_new : DataFrame) : DataFrame :=
  let display_df := rename_columns (PInt 0) (PStr "Value") (T X_new) in
  if (negb (count (PStr "customerid") (index_str_lower display_df) =? 0))
       && py_not_str (customer_id f)
  then drop_index (PStr "customerID") display_df
  else display_df.

(** ** Exceptions and traced computations *)

Inductive exn : Type :=
| Exception (msg : string)        (* any subclass of Exception *)
| StopException                   (* raised by st.stop(); a BaseException *)
| BaseException (msg : string).   (* KeyboardInterrupt, SystemExit, ... *)

(** [isinstance(e, Exception)]: what [except Exception] catches. *)
Definition is_Exception (e : exn) : bool :=
  match e with Exception _ => true | _ => false end.

(** [str(e)] *)
Definition exn_str (e : exn) : string :=
  match e with Exception m => m | StopException => "" | BaseException m => m end.

Inductive res (A : Type) : Type :=
| Ret (a : A)
| Raise (e : exn).
Arguments Ret {A} a.
Arguments Raise {A} e.

(** Calls on the FPDF object, in the order they are made. *)
Inductive pdf_op : Type :=
| AddPage
| SetAutoPageBreak (auto : bool) (margin : Z)
| SetFont (family style : string) (size : Z)
| SetTextColor (r g b : Z)
| Cell (w h : Z) (txt : string) (ln : bool) (align : string)
| MultiCell (w h : Z) (txt : string)
| Ln (h : Z).

(** Observable effects of a run of the script. *)
Inductive event : Type :=
| JoblibLoad (path : string)
| StSetPageConfig (page_title layout : string)
| StTitle (body : string)
| StWrite (body : string)
| StMarkdown (body : string)
| StSubheader (body : string)
| StTable (data : DataFrame)
| StError (body : string)
| StSuccess (body : string)
| PipelinePredict (X : DataFrame)
| PipelinePredictProba (X : DataFrame)
| PdfCall (op : pdf_op)
| PdfOutput (filename : string) (doc : list pdf_op).

Definition M (A : Type) : Type := (list event * res A)%type.

Definition ret {A} (a : A) : M A := ([], Ret a).
Definition raise {A} (e : exn) : M A := ([], Raise e).
Definition emit (ev : event) : M unit := ([ev], Ret tt).

Definition bind {A B} (m : M A) (k : A -> M B) : M B :=
  match m with
  | (t, Ret a) => let (t', r) := k a in ((t ++ t')%list, r)
  | (t, Raise e) => (t, Raise e)
  end.

Definition lift {A} (r : res A) : M A := ([], r).

(** [try: m  except Exception as e: h e] *)
Definition try_except {A} (m : M A) (h : exn -> M A) : M A :=
  match m with
  | (t, Ret a) => (t, Ret a)
  | (t, Raise e) =>
      if is_Exception e then let (t', r) := h e in ((t ++ t')%list, r)
      else (t, Raise e)
  end.

(** [try: m  finally: fin]: [fin] always runs; an exception of [m]
    propagates afterwards unless [fin] raises itself. *)
Definition try_finally {A} (m : M A) (fin : M unit) : M A :=
  let (t, r) := m in
  match fin with
  | (t', Ret _) => ((t ++ t')%list, r)
  | (t', Raise e') => ((t ++ t')%list, Raise e')
  end.

Declare Scope m_scope.
Delimit Scope m_scope with m.
Notation "x <- c1 ;; c2" := (bind c1 (fun x => c2))
  (at level 100, c1 at next level, right associativity) : m_scope.
Notation "c1 ;; c2" := (bind c1 (fun _ => c2))
  (at level 100, right associativity) : m_scope.
Open Scope m_scope.

Definition trace {A} (m : M A) : list event := fst m.
Definition outcome {A} (m : M A) : res A := snd m.

(** [seq[i]]: IndexError when [i] is out of range. *)
Definition index {A} (l : list A) (i : nat) : M A :=
  match nth_error l i with
  | Some a => ret a
  | None => raise (Exception "index out of range")
  end.

(** ** The pipeline artifact *)

(** The unpickled object: [predict] always exists; [predict_proba] is an
    attribute the object may lack ([hasattr] is [Some]/[None]). *)
Record pipeline := {
  predict : DataFrame -> res (list pyval);
  predict_proba : option (DataFrame -> res (list (list float)))
}.

Definition call_predict (p : pipeline) (X : DataFrame) : M (list pyval) :=
  emit (PipelinePredict X) ;; lift (predict p X).

Definition call_predict_proba (pp : DataFrame -> res (list (list float)))
  (X : DataFrame) : M (list (list float)) :=
  emit (PipelinePredictProba X) ;; lift (pp X).

(** ** Naive datetimes and [strftime] *)

Record datetime := {
  year : Z; month : Z; day : Z;
  hour : Z; minute : Z; second : Z; microsecond : Z
}.

Definition is_leap (y : Z) : bool :=
  (y mod 4 =? 0) && (negb (y mod 100 =? 0) || (y mod 400 =? 0)).

Definition days_in_month (y m : Z) : Z :=
  if m =? 2 then (if is_leap y then 29 else 28)
  else if (m =? 4) || (m =? 6) || (m =? 9) || (m =? 11) then 30
  else 31.

(** The invariants of a [datetime] object (MINYEAR = 1, MAXYEAR = 9999). *)
Definition valid_datetime (t : datetime) : Prop :=
  1 <= year t <= 9999 /\
  1 <= month t <= 12 /\
  1 <= day t <= days_in_month (year t) (month t) /\
  0 <= hour t < 24 /\
  0 <= minute t < 60 /\
  0 <= second t < 60 /\
  0 <= microsecond t < 1000000.

Definition days_before_year (y : Z) : Z :=
  let y0 := y - 1 in y0 * 365 + y0 / 4 - y0 / 100 + y0 / 400.

Definition days_before_month_common (m : Z) : Z :=
  nth (Z.to_nat m) [0; 0; 31; 59; 90; 120; 151; 181; 212; 243; 273; 304; 334] 0.

Definition days_before_month (y m : Z) : Z :=
  days_before_month_common m + (if (2 <? m) && is_leap y then 1 else 0).

(** [date.toordinal()]: day number, 0001-01-01 being day 1. *)
Definition toordinal (t : datetime) : Z :=
  days_before_year (year t) + days_before_month (year t) (month t) + day t.

(** Position of [t] on the time line, in whole seconds and in
    microseconds; [t2 - t1] as a [timedelta] is the difference of the
    latter. *)
Definition to_seconds (t : datetime) : Z :=
  ((toordinal t * 24 + hour t) * 60 + minute t) * 60 + second t.

Definition to_microseconds (t : datetime) : Z :=
  to_seconds t * 1000000 + microsecond t.

(** Field-by-field comparison, most significant field first. *)
Definition lexico (c1 c2 : comparison) : comparison :=
  match c1 with Eq => c2 | _ => c1 end.

Definition compare_fields (t1 t2 : datetime) : comparison :=
  lexico (year t1 ?= year t2)
    (lexico (month t1 ?= month t2)
      (lexico (day t1 ?= day t2)
        (lexico (hour t1 ?= hour t2)
          (lexico (minute t1 ?= minute t2)
            (second t1 ?= second t2))))).

Definition digit (d : Z) : ascii := ascii_of_N (48 + Z.to_N d).

(** Zero-padded decimal fields, two and four wide. *)
Definition zpad2 (n : Z) : string :=
  String (digit (n / 10)) (String (digit (n mod 10)) EmptyString).

Definition zpad4 (n : Z) : string :=
  String (digit (n / 1000)) (String (digit (n / 100 mod 10))
    (String (digit (n / 10 mod 10)) (String (digit (n mod 10)) EmptyString))).

(** [%Y] is the year as four digits, the other fields are two digits, all
    zero-padded; a directive the script does not use is left as it is. *)
Definition directive (t : datetime) (c : ascii) : string :=
  if Ascii.eqb c "Y" then zpad4 (year t)
  else if Ascii.eqb c "m" then zpad2 (month t)
  else if Ascii.eqb c "d" then zpad2 (day t)
  else if Ascii.eqb c "H" then zpad2 (hour t)
  else if Ascii.eqb c "M" then zpad2 (minute t)
  else if Ascii.eqb c "S" then zpad2 (second t)
  else String "%" (String c EmptyString).

(** [t.strftime(fmt)] for the directives the script uses. *)
Fixpoint strftime (t : datetime) (fmt : string) : string :=
  match fmt with
  | EmptyString => EmptyString
  | String c rest =>
      if Ascii.eqb c "%" then
        match rest with
        | String d rest' => directive t d ++ strftime t rest'
        | EmptyString => String c EmptyString
        end
      else String c (strftime t rest)
  end.

(** Python compares strings code point by code point. *)
Definition str_lt (a b : string) : Prop := String.compare a b = Lt.

(** [str(z)] for an integer. *)
Definition str_int (z : Z) : string := NilEmpty.string_of_int (Z.to_int z).

(** ** FPDF and the latin-1 core fonts *)

(** The module [fpdf] is provided by two libraries.  With a core font such
    as Arial both can only print latin-1 text, and they differ in where a
    character outside latin-1 is refused: fpdf2 encodes the text of a
    [cell] / [multi_cell] when the call is made and raises
    FPDFUnicodeEncodingException there; PyFPDF accepts the call and encodes
    the finished pages in [output], where it raises UnicodeEncodeError
    before it opens the file. *)
Inductive fpdf_library : Type := PyFPDF | FPDF2.

(** Encodable in latin-1: every code point is at most U+00FF.  In UTF-8 a
    code point above U+00FF has a lead byte of 0xC4 or more, and no byte of
    a code point up to U+00FF reaches 0xC4. *)
Fixpoint latin1 (s : string) : bool :=
  match s with
  | EmptyString => true
  | String c s' => (N_of_ascii c <? 196)%N && latin1 s'
  end.

(** The text a call prints, if any, is latin-1. *)
Definition text_ok (op : pdf_op) : bool :=
  match op with
  | Cell _ _ txt _ _ => latin1 txt
  | MultiCell _ _ txt => latin1 txt
  | _ => true
  end.

Definition encoding_error (lib : fpdf_library) : exn :=
  match lib with
  | PyFPDF => Exception "UnicodeEncodeError"
  | FPDF2 => Exception "FPDFUnicodeEncodingException"
  end.

(** One call on the [pdf] object. *)
Definition fpdf_call (lib : fpdf_library) (op : pdf_op) : M unit :=
  match lib with
  | PyFPDF => emit (PdfCall op)
  | FPDF2 => if text_ok op then emit (PdfCall op)
             else raise (encoding_error FPDF2)
  end.

(** Calls made one after the other; the first that raises ends them. *)
Fixpoint fpdf_calls (lib : fpdf_library) (doc : list pdf_op) : M unit :=
  match doc with
  | [] => ret tt
  | op :: doc' => fpdf_call lib op ;; fpdf_calls lib doc'
  end.

(** [pdf.output(filename)] after the calls [doc]. *)
Definition fpdf_output (lib : fpdf_library) (filename : string)
  (doc : list pdf_op) : M unit :=
  match lib with
  | PyFPDF => if forallb text_ok doc then emit (PdfOutput filename doc)
              else raise (encoding_error PyFPDF)
  | FPDF2 => emit (PdfOutput filename doc)
  end.

(** ** The report renderer (lines 86-119) *)

Section Renderer.

(** Python's float formatting, taken as given: [str(x)] and
    [format(x, ".2%")]. *)
Variable repr_float : float -> string.
Variable format_percent : float -> string.

(** [str(v)], as the f-string [f"{k}: {v}"] applies it. *)
Definition py_str (v : pyval) : string :=
  match v with
  | PNone => "None"
  | PBool true => "True"
  | PBool false => "False"
  | PInt z => str_int z
  | PFloat f => repr_float f
  | PStr s => s
  end.

Definition result_text (pred_label : pyval) : string :=
  if py_eq_1 pred_label then "LIKELY TO CHURN ❌" else "NOT LIKELY TO CHURN ✅".

Definition verdict_color (pred_label : pyval) : pdf_op :=
  if py_eq_1 pred_label then SetTextColor 200 30 30 else SetTextColor 30 130 30.

Definition item_line (kv : string * pyval) : pdf_op :=
  MultiCell 0 6 (fst kv ++ ": " ++ py_str (snd kv)).

Definition verdict_line (pred_label : pyval) : pdf_op :=
  Cell 0 8 ("Prediction: " ++ result_text pred_label) true "".

Definition probability_line (p : float) : pdf_op :=
  Cell 0 7 ("Probability of churn: " ++ format_percent p) true "".

(** The calls [generate_pdf] makes on the [pdf] object before [output], in
    order (lines 87-115); [now] is what [datetime.now()] returns at line 96. *)
Definition pdf_body (now : datetime) (customer_dict : dict) (pred_label : pyval)
  (pred_proba : option float) : list pdf_op :=
  ([ AddPage;
     SetAutoPageBreak true 15;
     SetFont "Arial" "B" 16;
     Cell 0 10 "Telco Customer Churn Prediction Report" true "C";
     Ln 6;
     SetFont "Arial" "" 11;
     Cell 0 7 ("Generated: " ++ strftime now "%Y-%m-%d %H:%M:%S") true "";
     Ln 6;
     SetFont "Arial" "B" 12;
     Cell 0 7 "Customer Input:" true "";
     SetFont "Arial" "" 10 ]
   ++ map item_line customer_dict
   ++ [ Ln 4;
        SetFont "Arial" "B" 12;
        verdict_color pred_label;
        verdict_line pred_label ]
   ++ match pred_proba with
      | Some p => [ SetTextColor 0 0 0; SetFont "Arial" "" 10; probability_line p ]
      | None => []
      end)%list.

Definition report_filename (now : datetime) : string :=
  "churn_report_" ++ strftime now "%Y%m%d_%H%M%S" ++ ".pdf".

(** [generate_pdf] with the library [lib] installed; [now1] and [now2] are
    the two readings of the clock (lines 96 and 117). *)
Definition generate_pdf (lib : fpdf_library) (now1 now2 : datetime)
  (customer_dict : dict) (pred_label : pyval) (pred_proba : option float)
  : M string :=
  let doc := pdf_body now1 customer_dict pred_label pred_proba in
  fpdf_calls lib doc ;;
  let filename := report_filename now2 in
  fpdf_output lib filename doc ;;
  ret filename.

End Renderer.

(** ** The predict handler (lines 122-151) *)

(** The body of the [try] block.  The handler keeps [pred] and [proba] in
    local variables; they are returned here so that they can be observed. *)
Definition predict_step (p : pipeline) (X_new : DataFrame) : M (pyval * option float) :=
  preds <- call_predict p X_new ;;
  pred <- index preds 0 ;;
  proba <- match predict_proba p with
           | Some pp =>
               try_except
                 (rows <- call_predict_proba pp X_new ;;
                  row <- index rows 0 ;;
                  x <- index row 1 ;;
                  ret (Some x))
                 (fun _ => ret None)
           | None => ret None
           end ;;
  (if py_eq_1 pred
   then emit (StError "❌ This customer is likely to churn.")
   else emit (StSuccess "✅ This customer is not likely to churn.")) ;;
  ret (pred, proba).

Definition on_predict (p : pipeline) (f : form) : M unit :=
  let X_new := build_input_df f in
  emit (StSubheader "Input Summary") ;;
  emit (StTable (input_summary f X_new)) ;;
  try_finally
    (predict_step p X_new ;; ret tt)
    (emit (StWrite "Prediction attempt finished.")).

(** The probability the specification assigns to a request, in its words:
    with the capability present and a probability vector returned, the second
    entry of the vector's first row; with the capability absent, or raising an
    exception, no probability. *)
Inductive probability_of (p : pipeline) (X : DataFrame) : option float -> Prop :=
| proba_second_column pp p0 p1 rest rows :
    predict_proba p = Some pp ->
    pp X = Ret ((p0 :: p1 :: rest) :: rows) ->
    probability_of p X (Some p1)
| proba_capability_absent :
    predict_proba p = None ->
    probability_of p X None
| proba_capability_raises pp e :
    predict_proba p = Some pp ->
    pp X = Raise e ->
    is_Exception e = true ->
    probability_of p X None.

(** ** One run of the script *)

(** What the outside world supplies to a run: the outcome of unpickling the
    artifact, the widget values, and whether the button was pressed. *)
Record world := {
  artifact : res pipeline;
  widgets : form;
  button : bool
}.

Definition joblib_load (w : world) (path : string) : M pipeline :=
  emit (JoblibLoad path) ;; lift (artifact w).

(** [st.stop()] raises StopException, which ends the run. *)
Definition st_stop {A} : M A := raise StopException.

Definition load_pipeline (w : world) : M pipeline :=
  try_except (joblib_load w "churnmodel_fix.pkl")
    (fun e => emit (StError ("❌ Failed to load model: " ++ exn_str e)) ;; st_stop).

Definition script (w : world) : M unit :=
  p <- load_pipeline w ;;
  emit (StSetPageConfig "Telco Churn Prediction" "centered") ;;
  emit (StTitle "📊 Telco Customer Churn Prediction Dashboard") ;;
  emit (StWrite "Fill the form and click Predict. A downloadable PDF report will be generated.") ;;
  emit (StMarkdown "### Customer details") ;;
  emit (StMarkdown "### Billing") ;;
  if button w then on_predict p (widgets w) else ret tt.

(** ** Observations on traces and documents *)

(** Names of the report files a run wrote. *)
Fixpoint report_files (t : list event) : list string :=
  match t with
  | [] => []
  | PdfOutput filename _ :: t' => filename :: report_files t'
  | _ :: t' => report_files t'
  end.

(** A computation is [quiet] when it writes no report file. *)
Definition quiet {A} (m : M A) : Prop := report_files (trace m) = [].

(** Membership and duplicate-freeness of lists of names, decided. *)
Definition mem (x : string) (l : list string) : bool := existsb (String.eqb x) l.

Fixpoint nodupb (l : list string) : bool :=
  match l with
  | [] => true
  | x :: l' => negb (mem x l') && nodupb l'
  end.

(** The frames the pipeline was asked to classify during a run. *)
Fixpoint predictions (t : list event) : list DataFrame :=
  match t with
  | [] => []
  | PipelinePredict X :: t' => X :: predictions t'
  | PipelinePredictProba X :: t' => X :: predictions t'
  | _ :: t' => predictions t'
  end.

(** The verdict banners ([st.error] / [st.success]) a run displayed. *)
Fixpoint banners (t : list event) : list event :=
  match t with
  | [] => []
  | StError b :: t' => StError b :: banners t'
  | StSuccess b :: t' => StSuccess b :: banners t'
  | _ :: t' => banners t'
  end.

(** The calls the [pdf] object accepted during a run. *)
Fixpoint pdf_calls (t : list event) : list pdf_op :=
  match t with
  | [] => []
  | PdfCall op :: t' => op :: pdf_calls t'
  | _ :: t' => pdf_calls t'
  end.

(** The calls up to the first whose text is not latin-1. *)
Fixpoint latin1_prefix (doc : list pdf_op) : list pdf_op :=
  match doc with
  | [] => []
  | op :: doc' => if text_ok op then op :: latin1_prefix doc' else []
  end.


(** The listing the specification describes for the report: every field of
    the record, the customerID field left out when it is blank. *)
Definition is_blank (v : pyval) : bool :=
  match v with PStr s => py_not_str s | _ => false end.

Definition spec_itemized_fields (d : dict) : dict :=
  filter (fun kv => negb (String.eqb (fst kv) "customerID" && is_blank (snd kv))) d.

(** [v == 1] spelled out: the integer 1, or one of the values Python's
    comparison identifies with it ([True], the float 1.0). *)
Definition equals_1 (v : pyval) : Prop :=
  v = PInt 1 \/ v = PBool true \/
  exists f, v = PFloat f /\ PrimFloat.eqb f 1%float = true.

(** Stand-ins for Python's float formatting on the sample values. *)
Definition sample_repr_float (x : float) : string :=
  if PrimFloat.eqb x 50%float then "50.0" else "500.0".

Definition sample_format_percent (x : float) : string :=
  if PrimFloat.eqb x 0.75%float then "75.00%" else "25.00%".

(** The widget defaults: first option of every selectbox, [value=] of the
    text and number inputs. *)
Definition default_form : form :=
  {| customer_id := "";
     gender := "Male";
     senior_citizen := "No";
     partner := "No";
     dependents := "No";
     tenure := 12;
     phone_service := "No";
     multiple_lines := "No";
     internet_service := "DSL";
     online_security := "No";
     online_backup := "No";
     device_protection := "No";
     tech_support := "No";
     streaming_tv := "No";
     streaming_movies := "No";
     contract := "Month-to-month";
     paperless_billing := "No";
     payment_method := "Electronic check";
     monthly_charges := 50%float;
     total_charges := 500%float |}.

(** The same form with another identity text typed in. *)
Definition with_customer_id (s : string) (f : form) : form :=
  {| customer_id := s;
     gender := gender f;
     senior_citizen := senior_citizen f;
     partner := partner f;
     dependents := dependents f;
     tenure := tenure f;
     phone_service := phone_service f;
     multiple_lines := multiple_lines f;
     internet_service := internet_service f;
     online_security := online_security f;
     online_backup := online_backup f;
     device_protection := device_protection f;
     tech_support := tech_support f;
     streaming_tv := streaming_tv f;
     streaming_movies := streaming_movies f;
     contract := contract f;
     paperless_billing := paperless_billing f;
     payment_method := payment_method f;
     monthly_charges := monthly_charges f;
     total_charges := total_charges f |}.

(** A fitted two-class pipeline that answers "churn" with probability 0.75. *)
Definition churn_pipeline : pipeline :=
  {| predict := fun _ => Ret [PInt 1];
     predict_proba := Some (fun _ => Ret [[0.25%float; 0.75%float]]) |}.

(** A pipeline without [predict_proba]. *)
Definition label_only_pipeline (label : pyval) : pipeline :=
  {| predict := fun _ => Ret [label]; predict_proba := None |}.

(** A pipeline whose [predict] and [predict_proba] answer as given. *)
Definition stub_pipeline (labels : res (list pyval))
  (probas : res (list (list float))) : pipeline :=
  {| predict := fun _ => labels; predict_proba := Some (fun _ => probas) |}.

(** A button press on the default form with the artifact loaded. *)
Definition pressed_world (p : pipeline) : world :=
  {| artifact := Ret p; widgets := default_form; button := true |}.

Definition sample_time : datetime :=
  {| year := 2024; month := 2; day := 29;
     hour := 23; minute := 59; second := 59; microsecond := 250000 |}.

Definition sample_time_next : datetime :=
  {| year := 2024; month := 3; day := 1;
     hour := 0; minute := 0; second := 0; microsecond := 250000 |}.

(** ** Further observations *)

(** The frames handed to [predict], and to [predict_proba], during a run. *)
Fixpoint predict_calls (t : list event) : list DataFrame :=
  match t with
  | [] => []
  | PipelinePredict X :: t' => X :: predict_calls t'
  | _ :: t' => predict_calls t'
  end.

Fixpoint proba_calls (t : list event) : list DataFrame :=
  match t with
  | [] => []
  | PipelinePredictProba X :: t' => X :: proba_calls t'
  | _ :: t' => proba_calls t'
  end.

(** The banner the handler shows for a prediction (lines 144-147). *)
Definition banner_of (pred : pyval) : event :=
  if py_eq_1 pred
  then StError "❌ This customer is likely to churn."
  else StSuccess "✅ This customer is not likely to churn.".

(** What every run with a loaded artifact does before it looks at the
    button (lines 10-53). *)
Definition page_header : list event :=
  [ JoblibLoad "churnmodel_fix.pkl";
    StSetPageConfig "Telco Churn Prediction" "centered";
    StTitle "📊 Telco Customer Churn Prediction Dashboard";
    StWrite "Fill the form and click Predict. A downloadable PDF report will be generated.";
    StMarkdown "### Customer details";
    StMarkdown "### Billing" ].

(** A reading later in the same second as [sample_time]. *)
Definition sample_time_late : datetime :=
  {| year := 2024; month := 2; day := 29;
     hour := 23; minute := 59; second := 59; microsecond := 999999 |}.

(** * Properties *)

(** ** Traces of composite computations *)

Lemma trace_bind {A B} (m : M A) (k : A -> M B) :
  trace (bind m k) =
  (trace m ++ match outcome m with Ret a => trace (k a) | Raise _ => [] end)%list.
Proof.
  destruct m as [t [a | e]]; simpl.
  - destruct (k a); reflexivity.
  - now rewrite app_nil_r.
Qed.

Lemma outcome_bind {A B} (m : M A) (k : A -> M B) :
  outcome (bind m k) =
  match outcome m with Ret a => outcome (k a) | Raise e => Raise e end.
Proof.
  destruct m as [t [a | e]]; simpl; [destruct (k a) |]; reflexivity.
Qed.

Lemma report_files_app t1 t2 :
  report_files (t1 ++ t2) = (report_files t1 ++ report_files t2)%list.
Proof.
  induction t1 as [| ev t1 IH]; simpl; [reflexivity |].
  destruct ev; simpl; rewrite IH; reflexivity.
Qed.

Lemma quiet_ret {A} (a : A) : quiet (ret a).
Proof. reflexivity. Qed.

Lemma quiet_raise {A} (e : exn) : quiet (@raise A e).
Proof. reflexivity. Qed.

Lemma quiet_lift {A} (r : res A) : quiet (lift r).
Proof. reflexivity. Qed.

Lemma quiet_index {A} (l : list A) i : quiet (index l i).
Proof. unfold index. destruct (nth_error l i); reflexivity. Qed.

Lemma quiet_bind {A B} (m : M A) (k : A -> M B) :
  quiet m -> (forall a, quiet (k a)) -> quiet (bind m k).
Proof.
  unfold quiet. intros Hm Hk.
  rewrite trace_bind, report_files_app, Hm.
  destruct (outcome m); [apply Hk | reflexivity].
Qed.

Lemma quiet_try_except {A} (m : M A) (h : exn -> M A) :
  quiet m -> (forall e, quiet (h e)) -> quiet (try_except m h).
Proof.
  unfold quiet. intros Hm Hh.
  destruct m as [t [a | e]]; simpl in *; [assumption |].
  destruct (is_Exception e); [| assumption].
  specialize (Hh e). destruct (h e) as [t' r]. simpl in *.
  now rewrite report_files_app, Hm, Hh.
Qed.

Lemma quiet_try_finally {A} (m : M A) (fin : M unit) :
  quiet m -> quiet fin -> quiet (try_finally m fin).
Proof.
  unfold quiet. intros Hm Hf.
  destruct m as [t r], fin as [t' [u | e']]; simpl in *;
    now rewrite report_files_app, Hm, Hf.
Qed.

Create HintDb quiet.
#[local] Hint Resolve quiet_ret quiet_raise quiet_lift quiet_index
  quiet_bind quiet_try_except quiet_try_finally : quiet.
#[local] Hint Extern 1 (quiet (emit _)) => reflexivity : quiet.
#[local] Hint Extern 1 (quiet (if ?b then _ else _)) => destruct b : quiet.
#[local] Hint Extern 1 (quiet (match ?x with Some _ => _ | None => _ end)) =>
  destruct x : quiet.

Lemma predict_step_quiet p X : quiet (predict_step p X).
Proof.
  unfold predict_step, call_predict, call_predict_proba.
  auto 12 with quiet.
Qed.

Lemma on_predict_quiet p f : quiet (on_predict p f).
Proof.
  unfold on_predict.
  pose proof (predict_step_quiet p (build_input_df f)).
  auto 10 with quiet.
Qed.

Lemma script_quiet w : quiet (script w).
Proof.
  unfold script, load_pipeline, joblib_load, st_stop.
  pose proof on_predict_quiet.
  auto 14 with quiet.
Qed.

Lemma default_form_valid : valid_form default_form.
Proof. unfold valid_form; simpl. repeat split; try lia; tauto. Qed.

(** C1 (the code departs from the claim).  A button press on the default
    form, with a loaded pipeline that answers "churn" with probability 0.75:
    the run completes and shows the verdict banner, but no report file is
    written -- and none is written on any run, since the handler never calls
    [generate_pdf]. *)
Theorem predict_press_writes_no_report :
  outcome (script (pressed_world churn_pipeline)) = Ret tt /\
  banners (trace (script (pressed_world churn_pipeline)))
    = [StError "❌ This customer is likely to churn."] /\
  report_files (trace (script (pressed_world churn_pipeline))) = [] /\
  (forall w, report_files (trace (script w)) = []).
Proof.
  repeat split; try reflexivity.
  exact script_quiet.
Qed.

(** ** The schema mapper *)

Lemma mem_In x l : mem x l = true <-> In x l.
Proof.
  unfold mem. rewrite existsb_exists. split.
  - intros [y [Hy He]]. apply String.eqb_eq in He. now subst.
  - intros H. exists x. split; [assumption | apply String.eqb_refl].
Qed.

Lemma nodupb_NoDup l : nodupb l = true -> NoDup l.
Proof.
  induction l as [| x l IH]; simpl; intros H; constructor.
  - apply andb_prop in H as [H _]. intros Hin. apply mem_In in Hin.
    now rewrite Hin in H.
  - apply IH. now apply andb_prop in H.
Qed.

Lemma forallb_mem_incl l1 l2 :
  forallb (fun x => mem x l2) l1 = true -> incl l1 l2.
Proof.
  rewrite forallb_forall. intros H x Hx. apply mem_In. now apply H.
Qed.

Lemma training_columns_NoDup : NoDup training_columns.
Proof. apply nodupb_NoDup. reflexivity. Qed.

Lemma training_columns_schema : Permutation training_columns schema_fields.
Proof.
  apply NoDup_Permutation.
  - exact training_columns_NoDup.
  - apply nodupb_NoDup. reflexivity.
  - intros x. split; apply forallb_mem_incl; reflexivity.
Qed.

(** C2.  For every form, [build_input_df] yields a frame with a single row;
    its columns are exactly the twenty training column names (the schema of
    the data model, each once, spelled as in training); SeniorCitizen is 1
    if and only if the choice was "Yes" and 0 otherwise; every other field
    holds the captured value unchanged. *)
Theorem build_input_df_matches_schema (f : form) :
  let X := build_input_df f in
  let r := input_data f in
  df_index X = [PInt 0] /\
  records X = [r] /\
  df_columns X = map PStr training_columns /\
  keys r = training_columns /\
  Permutation (keys r) schema_fields /\
  NoDup (keys r) /\
  length (keys r) = 20%nat /\
  (get "SeniorCitizen" r = Some (PInt 1) <-> senior_citizen f = "Yes") /\
  (get "SeniorCitizen" r = Some (PInt 0) <-> senior_citizen f <> "Yes") /\
  get "customerID" r = Some (PStr (customer_id f)) /\
  get "gender" r = Some (PStr (gender f)) /\
  get "Partner" r = Some (PStr (partner f)) /\
  get "Dependents" r = Some (PStr (dependents f)) /\
  get "tenure" r = Some (PInt (tenure f)) /\
  get "PhoneService" r = Some (PStr (phone_service f)) /\
  get "MultipleLines" r = Some (PStr (multiple_lines f)) /\
  get "InternetService" r = Some (PStr (internet_service f)) /\
  get "OnlineSecurity" r = Some (PStr (online_security f)) /\
  get "OnlineBackup" r = Some (PStr (online_backup f)) /\
  get "DeviceProtection" r = Some (PStr (device_protection f)) /\
  get "TechSupport" r = Some (PStr (tech_support f)) /\
  get "StreamingTV" r = Some (PStr (streaming_tv f)) /\
  get "StreamingMovies" r = Some (PStr (streaming_movies f)) /\
  get "Contract" r = Some (PStr (contract f)) /\
  get "PaperlessBilling" r = Some (PStr (paperless_billing f)) /\
  get "PaymentMethod" r = Some (PStr (payment_method f)) /\
  get "MonthlyCharges" r = Some (PFloat (monthly_charges f)) /\
  get "TotalCharges" r = Some (PFloat (total_charges f)).
Proof.
  cbv zeta.
  assert (Hk : keys (input_data f) = training_columns) by reflexivity.
  repeat match goal with |- _ /\ _ => split end; try reflexivity.
  - rewrite Hk. exact training_columns_schema.
  - rewrite Hk. exact training_columns_NoDup.
  - simpl. destruct (String.eqb_spec (senior_citizen f) "Yes"); split;
      congruence.
  - simpl. destruct (String.eqb_spec (senior_citizen f) "Yes"); split;
      congruence.
Qed.


(** ** The predictor adapter *)

(** C3.  When the pipeline's [predict] returns its labels, the predict step
    ends without raising and holds the first label together with the
    probability the specification describes: the second column of the first
    row of what [predict_proba] returns when that capability is there, and no
    probability when the capability is absent or raises an exception.  The
    handler as a whole then completes too. *)
Theorem predict_step_probability (p : pipeline) (X : DataFrame)
  (label : pyval) (labels : list pyval) (proba : option float) :
  predict p X = Ret (label :: labels) ->
  probability_of p X proba ->
  outcome (predict_step p X) = Ret (label, proba) /\
  (forall f, X = build_input_df f -> outcome (on_predict p f) = Ret tt).
Proof.
  intros Hp Hq.
  assert (Hstep : outcome (predict_step p X) = Ret (label, proba)).
  { unfold predict_step, call_predict, call_predict_proba.
    destruct Hq as [pp p0 p1 rest rows Hc Hr | Hc | pp e Hc Hr He];
      rewrite Hc; simpl; rewrite Hp; simpl; try rewrite Hr; simpl;
      try rewrite He; simpl; destruct (py_eq_1 label); reflexivity. }
  split; [exact Hstep |].
  intros f ->. unfold on_predict.
  destruct (predict_step p (build_input_df f)) as [t r]. simpl in Hstep.
  subst r. reflexivity.
Qed.

Lemma predict_step_probability_witness :
  outcome (predict_step
             (stub_pipeline (Ret [PInt 0]) (Raise (Exception "not fitted")))
             (build_input_df default_form))
  = Ret (PInt 0, None).
Proof.
  apply (predict_step_probability
           (stub_pipeline (Ret [PInt 0]) (Raise (Exception "not fitted")))
           (build_input_df default_form) (PInt 0) [] None).
  - reflexivity.
  - apply proba_capability_raises
      with (pp := fun _ => Raise (Exception "not fitted"))
           (e := Exception "not fitted"); reflexivity.
Defined.

(** C6.  When the pipeline's [predict] call raises on a button press, the
    same exception leaves the script (it reaches the Streamlit runner); the
    run shows the input summary and the closing note of the [finally] block
    and nothing else: no verdict banner, no second pipeline call, no report. *)
Theorem inference_failure_is_fatal (w : world) (p : pipeline) (e : exn) :
  artifact w = Ret p ->
  button w = true ->
  predict p (build_input_df (widgets w)) = Raise e ->
  outcome (script w) = Raise e /\
  trace (on_predict p (widgets w)) =
    [ StSubheader "Input Summary";
      StTable (input_summary (widgets w) (build_input_df (widgets w)));
      PipelinePredict (build_input_df (widgets w));
      StWrite "Prediction attempt finished." ] /\
  banners (trace (script w)) = [] /\
  report_files (trace (script w)) = [].
Proof.
  intros Ha Hb He.
  assert (Ht : on_predict p (widgets w) =
    ([ StSubheader "Input Summary";
       StTable (input_summary (widgets w) (build_input_df (widgets w)));
       PipelinePredict (build_input_df (widgets w));
       StWrite "Prediction attempt finished." ], Raise e)).
  { unfold on_predict, predict_step, call_predict. simpl. rewrite He.
    reflexivity. }
  unfold script, load_pipeline, joblib_load. rewrite Ha, Hb. simpl.
  rewrite Ht. simpl. repeat split; reflexivity.
Qed.

Lemma inference_failure_is_fatal_witness :
  outcome (script (pressed_world
             (stub_pipeline (Raise (Exception "columns are missing"))
                            (Ret [[0.25%float; 0.75%float]]))))
  = Raise (Exception "columns are missing").
Proof.
  apply (inference_failure_is_fatal
           (pressed_world
              (stub_pipeline (Raise (Exception "columns are missing"))
                             (Ret [[0.25%float; 0.75%float]])))
           (stub_pipeline (Raise (Exception "columns are missing"))
                          (Ret [[0.25%float; 0.75%float]]))
           (Exception "columns are missing"));
    reflexivity.
Defined.

(** C7.  When unpickling the artifact raises, the pipeline is never called
    in that run and the run ends by an exception, whatever the button says;
    for an [Exception] the page shows exactly one thing after the load
    attempt, the "Failed to load model" error, and [st.stop()] ends the run
    there. *)
Theorem load_failure_halts (w : world) (e : exn) :
  artifact w = Raise e ->
  is_Exception e = true ->
  trace (script w) =
    [ JoblibLoad "churnmodel_fix.pkl";
      StError ("❌ Failed to load model: " ++ exn_str e) ] /\
  outcome (script w) = Raise StopException /\
  predictions (trace (script w)) = [] /\
  banners (trace (script w)) =
    [ StError ("❌ Failed to load model: " ++ exn_str e) ].
Proof.
  intros Ha He.
  unfold script, load_pipeline, joblib_load, st_stop. rewrite Ha. simpl.
  rewrite He. simpl. repeat split; reflexivity.
Qed.

Lemma load_failure_halts_witness :
  outcome (script {| artifact := Raise (Exception "No such file");
                     widgets := default_form; button := true |})
  = Raise StopException.
Proof.
  apply (load_failure_halts
           {| artifact := Raise (Exception "No such file");
              widgets := default_form; button := true |}
           (Exception "No such file")); reflexivity.
Defined.

(** Whatever the class of the exception that unpickling raises, the run
    ends by an exception without a single call to the pipeline. *)
Lemma no_prediction_without_pipeline (w : world) (e : exn) :
  artifact w = Raise e ->
  predictions (trace (script w)) = [] /\
  exists e', outcome (script w) = Raise e'.
Proof.
  intros Ha.
  unfold script, load_pipeline, joblib_load, st_stop. rewrite Ha. simpl.
  destruct (is_Exception e); simpl; split; try reflexivity; eexists;
    reflexivity.
Qed.

(** ** Report file names and the clock *)

Lemma digit_compare a b :
  0 <= a <= 9 -> 0 <= b <= 9 ->
  Ascii.compare (digit a) (digit b) = (a ?= b).
Proof.
  intros Ha Hb. unfold Ascii.compare, digit.
  rewrite !N_ascii_embedding by lia.
  destruct (Z.compare_spec a b) as [E | E | E].
  - subst. apply N.compare_refl.
  - apply N.compare_lt_iff. lia.
  - apply N.compare_gt_iff. lia.
Qed.

Lemma append_assoc (a b c : string) : (a ++ b) ++ c = a ++ (b ++ c).
Proof. induction a as [| x a IH]; simpl; [| rewrite IH]; reflexivity. Qed.

Lemma compare_refl (s : string) : String.compare s s = Eq.
Proof.
  induction s as [| c s IH]; simpl; [reflexivity |].
  unfold Ascii.compare. now rewrite N.compare_refl.
Qed.

Lemma compare_common_prefix p s t :
  String.compare (p ++ s) (p ++ t) = String.compare s t.
Proof.
  induction p as [| c p IH]; simpl; [reflexivity |].
  unfold Ascii.compare. now rewrite N.compare_refl.
Qed.

Lemma zpad2_compare a b s t :
  0 <= a < 100 -> 0 <= b < 100 ->
  String.compare (zpad2 a ++ s) (zpad2 b ++ t)
  = lexico (a ?= b) (String.compare s t).
Proof.
  intros Ha Hb. unfold zpad2. simpl.
  rewrite !digit_compare by (Z.div_mod_to_equations; lia).
  destruct (Z.compare_spec (a / 10) (b / 10)) as [E1 | E1 | E1];
    destruct (Z.compare_spec (a mod 10) (b mod 10)) as [E2 | E2 | E2];
    destruct (Z.compare_spec a b) as [E | E | E];
    try reflexivity; exfalso; Z.div_mod_to_equations; lia.
Qed.

Lemma zpad4_split n :
  0 <= n < 10000 -> zpad4 n = zpad2 (n / 100) ++ zpad2 (n mod 100).
Proof.
  intros Hn. unfold zpad4, zpad2. simpl.
  replace (n / 100 / 10) with (n / 1000) by (Z.div_mod_to_equations; lia).
  replace (n mod 100 / 10) with (n / 10 mod 10)
    by (Z.div_mod_to_equations; lia).
  replace (n mod 100 mod 10) with (n mod 10) by (Z.div_mod_to_equations; lia).
  reflexivity.
Qed.

Lemma zpad4_compare a b s t :
  0 <= a < 10000 -> 0 <= b < 10000 ->
  String.compare (zpad4 a ++ s) (zpad4 b ++ t)
  = lexico (a ?= b) (String.compare s t).
Proof.
  intros Ha Hb. rewrite !zpad4_split by assumption.
  rewrite !append_assoc.
  rewrite zpad2_compare by (Z.div_mod_to_equations; lia).
  rewrite zpad2_compare by (Z.div_mod_to_equations; lia).
  destruct (Z.compare_spec (a / 100) (b / 100)) as [E1 | E1 | E1];
    destruct (Z.compare_spec (a mod 100) (b mod 100)) as [E2 | E2 | E2];
    destruct (Z.compare_spec a b) as [E | E | E];
    try reflexivity; exfalso; Z.div_mod_to_equations; lia.
Qed.

Lemma report_filename_fields t :
  report_filename t
  = "churn_report_" ++ zpad4 (year t) ++ zpad2 (month t) ++ zpad2 (day t)
      ++ "_" ++ zpad2 (hour t) ++ zpad2 (minute t) ++ zpad2 (second t)
      ++ ".pdf".
Proof.
  reflexivity.
Qed.

Lemma days_in_month_bounds y m : 28 <= days_in_month y m <= 31.
Proof.
  unfold days_in_month.
  destruct (m =? 2); [destruct (is_leap y); lia |].
  destruct ((m =? 4) || (m =? 6) || (m =? 9) || (m =? 11)); lia.
Qed.

(** The names compare as the fields do. *)
Lemma filename_compare_fields t1 t2 :
  valid_datetime t1 -> valid_datetime t2 ->
  String.compare (report_filename t1) (report_filename t2)
  = compare_fields t1 t2.
Proof.
  intros (Hy1 & Hm1 & Hd1 & Hh1 & Hi1 & Hs1 & _)
         (Hy2 & Hm2 & Hd2 & Hh2 & Hi2 & Hs2 & _).
  pose proof (days_in_month_bounds (year t1) (month t1)).
  pose proof (days_in_month_bounds (year t2) (month t2)).
  rewrite !report_filename_fields. unfold compare_fields.
  rewrite compare_common_prefix.
  rewrite zpad4_compare by lia.
  rewrite !zpad2_compare by lia.
  rewrite (compare_common_prefix "_").
  rewrite !zpad2_compare by lia.
  destruct (year t1 ?= year t2), (month t1 ?= month t2), (day t1 ?= day t2),
    (hour t1 ?= hour t2), (minute t1 ?= minute t2), (second t1 ?= second t2);
    reflexivity.
Qed.

(** Days from the start of the year to the end of month [m]. *)
Lemma days_before_next_month y m :
  1 <= m <= 12 ->
  days_before_month y m + days_in_month y m
  = if m =? 12 then 365 + (if is_leap y then 1 else 0)
    else days_before_month y (m + 1).
Proof.
  intros Hm.
  assert (m = 1 \/ m = 2 \/ m = 3 \/ m = 4 \/ m = 5 \/ m = 6 \/ m = 7 \/
          m = 8 \/ m = 9 \/ m = 10 \/ m = 11 \/ m = 12) as Hc by lia.
  unfold days_before_month, days_in_month, days_before_month_common.
  repeat (destruct Hc as [-> | Hc]; [simpl; destruct (is_leap y); reflexivity |]).
  subst m. simpl. destruct (is_leap y); reflexivity.
Qed.

Lemma days_before_month_mono y m1 m2 :
  1 <= m1 -> m1 <= m2 -> m2 <= 12 ->
  days_before_month y m1 <= days_before_month y m2.
Proof.
  intros H1 H12 H2.
  assert (m1 = 1 \/ m1 = 2 \/ m1 = 3 \/ m1 = 4 \/ m1 = 5 \/ m1 = 6 \/
          m1 = 7 \/ m1 = 8 \/ m1 = 9 \/ m1 = 10 \/ m1 = 11 \/ m1 = 12)
    as Hc1 by lia.
  assert (m2 = 1 \/ m2 = 2 \/ m2 = 3 \/ m2 = 4 \/ m2 = 5 \/ m2 = 6 \/
          m2 = 7 \/ m2 = 8 \/ m2 = 9 \/ m2 = 10 \/ m2 = 11 \/ m2 = 12)
    as Hc2 by lia.
  unfold days_before_month, days_before_month_common.
  destruct (is_leap y);
    repeat (destruct Hc1 as [-> | Hc1]);
    try subst m1;
    repeat (destruct Hc2 as [-> | Hc2]);
    try subst m2; simpl; lia.
Qed.

Lemma days_before_month_bounds y m :
  1 <= m <= 12 -> 0 <= days_before_month y m.
Proof.
  intros Hm. pose proof (days_before_month_mono y 1 m).
  assert (days_before_month y 1 = 0) by reflexivity. lia.
Qed.

Lemma days_before_year_succ y :
  days_before_year (y + 1)
  = days_before_year y + 365 + (if is_leap y then 1 else 0).
Proof.
  unfold days_before_year, is_leap. cbv zeta.
  replace (y + 1 - 1) with y by lia.
  destruct (Z.eqb_spec (y mod 4) 0), (Z.eqb_spec (y mod 100) 0),
    (Z.eqb_spec (y mod 400) 0); simpl;
    Z.div_mod_to_equations; lia.
Qed.

Lemma days_before_year_mono y1 y2 :
  y1 <= y2 -> days_before_year y1 <= days_before_year y2.
Proof.
  intros H. replace y2 with (y1 + Z.of_nat (Z.to_nat (y2 - y1))) by lia.
  induction (Z.to_nat (y2 - y1)) as [| n IH]; [rewrite Z.add_0_r; lia |].
  rewrite Nat2Z.inj_succ.
  replace (y1 + Z.succ (Z.of_nat n)) with (y1 + Z.of_nat n + 1) by lia.
  rewrite days_before_year_succ.
  destruct (is_leap (y1 + Z.of_nat n)); lia.
Qed.

Lemma day_of_year_bounds y m d :
  1 <= m <= 12 -> 1 <= d <= days_in_month y m ->
  1 <= days_before_month y m + d <= 365 + (if is_leap y then 1 else 0).
Proof.
  intros Hm Hd.
  pose proof (days_before_month_bounds y m Hm).
  pose proof (days_before_next_month y m Hm) as Hn.
  pose proof (days_before_next_month y 12 ltac:(lia)) as Hl.
  pose proof (days_in_month_bounds y 12).
  rewrite Z.eqb_refl in Hl.
  destruct (Z.eqb_spec m 12) as [-> | Hne]; [lia |].
  pose proof (days_before_month_mono y (m + 1) 12). lia.
Qed.

Lemma toordinal_year_lt t1 t2 :
  valid_datetime t1 -> valid_datetime t2 ->
  year t1 < year t2 -> toordinal t1 < toordinal t2.
Proof.
  intros (_ & Hm1 & Hd1 & _) (_ & Hm2 & Hd2 & _) Hy.
  unfold toordinal.
  pose proof (day_of_year_bounds _ _ _ Hm1 Hd1).
  pose proof (day_of_year_bounds _ _ _ Hm2 Hd2).
  pose proof (days_before_year_succ (year t1)).
  pose proof (days_before_year_mono (year t1 + 1) (year t2)).
  lia.
Qed.

Lemma toordinal_month_lt t1 t2 :
  valid_datetime t1 -> valid_datetime t2 ->
  year t1 = year t2 -> month t1 < month t2 -> toordinal t1 < toordinal t2.
Proof.
  intros (_ & Hm1 & Hd1 & _) (_ & Hm2 & Hd2 & _) Hy Hm.
  unfold toordinal. rewrite <- Hy in *.
  pose proof (days_before_next_month (year t1) (month t1) Hm1) as Hn.
  destruct (Z.eqb_spec (month t1) 12) as [E | _]; [lia |].
  pose proof (days_before_month_mono (year t1) (month t1 + 1) (month t2)).
  lia.
Qed.

Lemma toordinal_same_month t1 t2 :
  year t1 = year t2 -> month t1 = month t2 ->
  toordinal t1 - toordinal t2 = day t1 - day t2.
Proof. intros Hy Hm. unfold toordinal. rewrite Hy, Hm. lia. Qed.

Ltac order_seconds :=
  symmetry;
  first [ apply Z.compare_lt_iff; unfold to_seconds; lia
        | apply Z.compare_gt_iff; unfold to_seconds; lia
        | apply Z.compare_eq_iff; unfold to_seconds; lia ].

(** The fields compare as the positions on the time line do. *)
Lemma compare_fields_chronological t1 t2 :
  valid_datetime t1 -> valid_datetime t2 ->
  compare_fields t1 t2 = (to_seconds t1 ?= to_seconds t2).
Proof.
  intros V1 V2.
  pose proof (toordinal_year_lt t1 t2 V1 V2) as Hy12.
  pose proof (toordinal_year_lt t2 t1 V2 V1) as Hy21.
  pose proof (toordinal_month_lt t1 t2 V1 V2) as Hm12.
  pose proof (toordinal_month_lt t2 t1 V2 V1) as Hm21.
  pose proof (toordinal_same_month t1 t2) as Hd.
  destruct V1 as (_ & _ & _ & Hh1 & Hi1 & Hs1 & _).
  destruct V2 as (_ & _ & _ & Hh2 & Hi2 & Hs2 & _).
  unfold compare_fields, lexico.
  destruct (Z.compare_spec (year t1) (year t2)) as [Ey | Ey | Ey];
    [| order_seconds | order_seconds].
  destruct (Z.compare_spec (month t1) (month t2)) as [Em | Em | Em];
    [| order_seconds | order_seconds].
  specialize (Hd Ey Em).
  destruct (Z.compare_spec (day t1) (day t2)) as [Ed | Ed | Ed];
    [| order_seconds | order_seconds].
  destruct (Z.compare_spec (hour t1) (hour t2)) as [Eh | Eh | Eh];
    [| order_seconds | order_seconds].
  destruct (Z.compare_spec (minute t1) (minute t2)) as [Ei | Ei | Ei];
    [| order_seconds | order_seconds].
  destruct (Z.compare_spec (second t1) (second t2)) as [Es | Es | Es];
    order_seconds.
Qed.

(** C8.  For two valid clock readings at least one second apart, the two
    report file names differ and the earlier reading's name is the smaller
    one in string order; more generally the names always compare exactly as
    the readings' whole seconds do. *)
Theorem report_filenames_follow_time (t1 t2 : datetime) :
  valid_datetime t1 -> valid_datetime t2 ->
  to_microseconds t2 - to_microseconds t1 >= 1000000 ->
  report_filename t1 <> report_filename t2 /\
  str_lt (report_filename t1) (report_filename t2) /\
  String.compare (report_filename t1) (report_filename t2)
    = (to_seconds t1 ?= to_seconds t2).
Proof.
  intros V1 V2 Hgap.
  assert (Hc : String.compare (report_filename t1) (report_filename t2)
               = (to_seconds t1 ?= to_seconds t2)).
  { rewrite filename_compare_fields by assumption.
    now apply compare_fields_chronological. }
  assert (Hlt : to_seconds t1 < to_seconds t2).
  { destruct V1 as (_ & _ & _ & _ & _ & _ & Hu1).
    destruct V2 as (_ & _ & _ & _ & _ & _ & Hu2).
    unfold to_microseconds in Hgap. lia. }
  assert (Hs : str_lt (report_filename t1) (report_filename t2)).
  { unfold str_lt. rewrite Hc. now apply Z.compare_lt_iff. }
  repeat split; try assumption.
  intros E. unfold str_lt in Hs. rewrite E, compare_refl in Hs.
  discriminate.
Qed.

Lemma report_filenames_follow_time_witness :
  str_lt (report_filename sample_time) (report_filename sample_time_next).
Proof.
  apply (report_filenames_follow_time sample_time sample_time_next).
  - repeat split; vm_compute; first [reflexivity | discriminate].
  - repeat split; vm_compute; first [reflexivity | discriminate].
  - vm_compute. discriminate.
Defined.

(** ** The report renderer *)

Lemma pdf_calls_map (l : list pdf_op) : pdf_calls (map PdfCall l) = l.
Proof. induction l as [| op l IH]; simpl; [| rewrite IH]; reflexivity. Qed.

Lemma report_files_calls (l : list pdf_op) : report_files (map PdfCall l) = [].
Proof. induction l as [| op l IH]; simpl; [reflexivity | exact IH]. Qed.


(** PyFPDF accepts every call. *)
Lemma fpdf_calls_PyFPDF (doc : list pdf_op) :
  fpdf_calls PyFPDF doc = (map PdfCall doc, Ret tt).
Proof.
  induction doc as [| op doc IH]; [reflexivity |].
  cbn [fpdf_calls fpdf_call]. rewrite IH. reflexivity.
Qed.

(** fpdf2 accepts the calls up to the first text outside latin-1. *)
Lemma fpdf_calls_FPDF2 (doc : list pdf_op) :
  fpdf_calls FPDF2 doc
  = (map PdfCall (latin1_prefix doc),
     if forallb text_ok doc then Ret tt else Raise (encoding_error FPDF2)).
Proof.
  induction doc as [| op doc IH]; [reflexivity |].
  cbn [fpdf_calls fpdf_call latin1_prefix forallb].
  destruct (text_ok op); [| reflexivity].
  rewrite IH. reflexivity.
Qed.

Lemma latin1_prefix_ok (doc : list pdf_op) :
  Forall (fun op => text_ok op = true) (latin1_prefix doc).
Proof.
  induction doc as [| op doc IH]; simpl; [constructor |].
  destruct (text_ok op) eqn:E; constructor; assumption.
Qed.

Lemma latin1_prefix_reaches (pre : list pdf_op) (op : pdf_op)
  (rest : list pdf_op) :
  forallb text_ok pre = true -> text_ok op = true ->
  In op (latin1_prefix (pre ++ op :: rest)).
Proof.
  intros Hpre Hop. induction pre as [| a pre IH]; simpl in *.
  - rewrite Hop. left. reflexivity.
  - apply andb_prop in Hpre as [Ha Hpre]. rewrite Ha. right. now apply IH.
Qed.

Lemma digit_latin1 (a : Z) :
  0 <= a <= 9 -> (N_of_ascii (digit a) <? 196)%N = true.
Proof.
  intros Ha. unfold digit. rewrite N_ascii_embedding by lia.
  apply N.ltb_lt. lia.
Qed.

(** The date line of a valid clock reading is plain ASCII. *)
Lemma generated_line_latin1 (now : datetime) :
  valid_datetime now ->
  latin1 ("Generated: " ++ strftime now "%Y-%m-%d %H:%M:%S") = true.
Proof.
  intros (Hy & Hm & Hd & Hh & Hi & Hs & _).
  pose proof (days_in_month_bounds (year now) (month now)).
  change (strftime now "%Y-%m-%d %H:%M:%S")
    with (zpad4 (year now) ++ "-" ++ zpad2 (month now) ++ "-"
          ++ zpad2 (day now) ++ " " ++ zpad2 (hour now) ++ ":"
          ++ zpad2 (minute now) ++ ":" ++ zpad2 (second now) ++ "").
  unfold zpad4, zpad2. cbn [String.append latin1].
  rewrite !digit_latin1 by (Z.div_mod_to_equations; lia).
  reflexivity.
Qed.

Lemma py_eq_1_spec (v : pyval) : py_eq_1 v = true <-> equals_1 v.
Proof.
  unfold equals_1. destruct v as [| b | z | x | s]; simpl; split; intros H.
  - discriminate.
  - destruct H as [H | [H | [x [H _]]]]; discriminate.
  - subst b. right. left. reflexivity.
  - destruct H as [H | [H | [x [H _]]]]; try discriminate. now inversion H.
  - apply Z.eqb_eq in H. subst z. left. reflexivity.
  - destruct H as [H | [H | [x [H _]]]]; try discriminate. now inversion H.
  - right. right. exists x. split; [reflexivity | assumption].
  - destruct H as [H | [H | [y [H E]]]]; try discriminate.
    inversion H. now subst y.
  - discriminate.
  - destruct H as [H | [H | [x [H _]]]]; discriminate.
Qed.

Lemma not_equals_1 (v : pyval) : py_eq_1 v = false <-> ~ equals_1 v.
Proof.
  rewrite <- py_eq_1_spec. destruct (py_eq_1 v); split; intros H;
    congruence.
Qed.

(** Both verdict texts end in a character outside latin-1. *)
Lemma result_text_not_latin1 (label : pyval) :
  latin1 (result_text label) = false /\
  text_ok (verdict_line label) = false.
Proof.
  unfold verdict_line, result_text.
  destruct (py_eq_1 label); split; reflexivity.
Qed.

Section RendererFacts.

Variable repr_float : float -> string.
Variable format_percent : float -> string.

Local Abbreviation render := (pdf_body repr_float format_percent).
Local Abbreviation generate := (generate_pdf repr_float format_percent).
Local Abbreviation item_line := (item_line repr_float).
Local Abbreviation py_str := (py_str repr_float).


Lemma verdict_in_pdf_body now d label proba :
  In (verdict_line label) (render now d label proba).
Proof.
  unfold pdf_body.
  rewrite !in_app_iff. right. right. left. simpl. tauto.
Qed.

(** The calls of the body are never all latin-1. *)
Lemma pdf_body_not_latin1 now d label proba :
  forallb text_ok (render now d label proba) = false.
Proof.
  destruct (forallb text_ok (render now d label proba)) eqn:E;
    [| reflexivity].
  rewrite forallb_forall in E.
  specialize (E _ (verdict_in_pdf_body now d label proba)).
  destruct (result_text_not_latin1 label) as [_ H]. congruence.
Qed.

(** What a call of [generate_pdf] does, in full. *)
Lemma generate_pdf_run lib now1 now2 d label proba :
  generate lib now1 now2 d label proba
  = (map PdfCall
       match lib with
       | PyFPDF => render now1 d label proba
       | FPDF2 => latin1_prefix (render now1 d label proba)
       end,
     Raise (encoding_error lib)).
Proof.
  unfold generate_pdf.
  destruct lib.
  - rewrite fpdf_calls_PyFPDF. unfold fpdf_output.
    rewrite pdf_body_not_latin1. simpl. now rewrite app_nil_r.
  - rewrite fpdf_calls_FPDF2, pdf_body_not_latin1. reflexivity.
Qed.

(** C4 (the code departs from the claim).  No report with a verdict line is
    ever rendered: for every record, label and probability, and with either
    FPDF library, [generate_pdf] raises the library's encoding error and
    writes no file, because the verdict text cannot be encoded in latin-1.
    With fpdf2 the verdict cell is the call that is refused (unless an
    earlier one was); with PyFPDF the verdict and probability cells are
    accepted and the failure comes in [output]. *)
Theorem report_with_verdict_is_never_written (lib : fpdf_library)
  (now1 now2 : datetime) (d : dict) (label : pyval) (proba : option float) :
  outcome (generate lib now1 now2 d label proba) = Raise (encoding_error lib) /\
  report_files (trace (generate lib now1 now2 d label proba)) = [] /\
  text_ok (verdict_line label) = false /\
  ~ In (verdict_line label)
       (pdf_calls (trace (generate FPDF2 now1 now2 d label proba))) /\
  In (verdict_line label)
     (pdf_calls (trace (generate PyFPDF now1 now2 d label proba))) /\
  match proba with
  | Some x =>
      In (probability_line format_percent x)
         (pdf_calls (trace (generate PyFPDF now1 now2 d label proba)))
  | None => True
  end.
Proof.
  rewrite !generate_pdf_run. cbn [trace outcome fst snd].
  rewrite !pdf_calls_map, report_files_calls.
  destruct (result_text_not_latin1 label) as [_ Hv].
  split; [reflexivity |]. split; [reflexivity |]. split; [exact Hv |].
  split; [| split].
  - intros Hin.
    pose proof (latin1_prefix_ok (render now1 d label proba)) as Hok.
    rewrite Forall_forall in Hok. specialize (Hok _ Hin). congruence.
  - apply verdict_in_pdf_body.
  - destruct proba as [x |]; [| exact I].
    unfold pdf_body. rewrite !in_app_iff. right. right. right.
    simpl. tauto.
Qed.

(** C5 (the code departs from the claim).  For a form whose identity field
    is blank, the on-screen Input Summary leaves the customerID row out (it
    is the listing the specification describes), but [generate_pdf], given
    the record, still makes the [multi_cell] call for "customerID: " -- its
    loop has no filter -- and then fails as on every call, so that no
    document is rendered at all. *)
Theorem blank_customerID_reaches_the_report (lib : fpdf_library)
  (now1 now2 : datetime) (f : form) (label : pyval) (proba : option float) :
  valid_datetime now1 ->
  In (MultiCell 0 6 "customerID: ")
     (pdf_calls (trace (generate lib now1 now2
                          (input_data (with_customer_id "" f)) label proba))) /\
  outcome (generate lib now1 now2 (input_data (with_customer_id "" f))
             label proba)
    = Raise (encoding_error lib) /\
  df_index (input_summary (with_customer_id "" f)
              (build_input_df (with_customer_id "" f)))
    = map PStr (keys (spec_itemized_fields
                        (input_data (with_customer_id "" f)))) /\
  ~ In (PStr "customerID")
       (df_index (input_summary (with_customer_id "" f)
                    (build_input_df (with_customer_id "" f)))).
Proof.
  intros Hnow.
  rewrite !generate_pdf_run. cbn [trace outcome fst snd].
  rewrite pdf_calls_map.
  split; [| split; [reflexivity | split; [reflexivity |]]].
  - destruct lib.
    + unfold pdf_body. rewrite !in_app_iff. right. left. left. reflexivity.
    + unfold pdf_body.
      match goal with
      | |- In _ (latin1_prefix (?h ++ map ?g ?r ++ ?z)) =>
          change (h ++ map g r ++ z)%list
            with (h ++ MultiCell 0 6 "customerID: " :: (map g (tl r) ++ z))%list
      end.
      apply latin1_prefix_reaches; [| reflexivity].
      cbn [forallb text_ok]. rewrite (generated_line_latin1 now1 Hnow).
      reflexivity.
  - intros H. simpl in H.
    repeat (destruct H as [H | H]; [discriminate H |]). exact H.
Qed.

(** C9 (the code departs from the claim).  The verdict is chosen by the
    test [label == 1] alone, with no error branch: text and colour are the
    "LIKELY TO CHURN" ones exactly when the label equals 1 and the
    "NOT LIKELY TO CHURN" ones for every other label, and the handler's
    banner follows the same test.  But for no label is the verdict rendered
    in a report: both verdict texts hold a character outside latin-1, and
    [generate_pdf] raises on every label without writing a file. *)
Theorem no_label_gets_a_report_verdict (lib : fpdf_library)
  (now1 now2 : datetime) (d : dict) (label : pyval) (proba : option float)
  (X : DataFrame) :
  latin1 (result_text label) = false /\
  outcome (generate lib now1 now2 d label proba) = Raise (encoding_error lib) /\
  report_files (trace (generate lib now1 now2 d label proba)) = [] /\
  (result_text label = "LIKELY TO CHURN ❌" <-> equals_1 label) /\
  (verdict_color label = SetTextColor 200 30 30 <-> equals_1 label) /\
  (result_text label = "NOT LIKELY TO CHURN ✅" <-> ~ equals_1 label) /\
  (verdict_color label = SetTextColor 30 130 30 <-> ~ equals_1 label) /\
  (banners (trace (predict_step (label_only_pipeline label) X))
     = [StError "❌ This customer is likely to churn."] <-> equals_1 label) /\
  (banners (trace (predict_step (label_only_pipeline label) X))
     = [StSuccess "✅ This customer is not likely to churn."]
     <-> ~ equals_1 label).
Proof.
  rewrite !generate_pdf_run. cbn [trace outcome fst snd].
  rewrite report_files_calls.
  destruct (result_text_not_latin1 label) as [Hr _].
  split; [exact Hr |]. split; [reflexivity |]. split; [reflexivity |].
  unfold result_text, verdict_color, predict_step. simpl.
  destruct (py_eq_1 label) eqn:E.
  - assert (Hy : equals_1 label) by now apply py_eq_1_spec.
    repeat split; intros H; try assumption; try reflexivity;
      try contradiction; exfalso; discriminate H.
  - assert (Hn : ~ equals_1 label) by now apply not_equals_1.
    repeat split; intros H; try assumption; try reflexivity;
      try contradiction; exfalso; discriminate H.
Qed.


End RendererFacts.

Lemma blank_customerID_reaches_the_report_witness :
  In (MultiCell 0 6 "customerID: ")
     (pdf_calls
        (trace (generate_pdf sample_repr_float sample_format_percent FPDF2
                  sample_time sample_time_next
                  (input_data (with_customer_id "" default_form))
                  (PInt 0) None))).
Proof.
  apply (blank_customerID_reaches_the_report sample_repr_float
           sample_format_percent FPDF2 sample_time sample_time_next
           default_form (PInt 0) None).
  repeat split; vm_compute; first [reflexivity | discriminate].
Defined.

(** ** The predict handler, beyond the verdict *)

(** X1.  One button press makes exactly one [predict] call, on the frame of
    [build_input_df], and at most one [predict_proba] call, on the same
    frame: that second call is made exactly when the pipeline has the
    capability and [predict] has returned at least one label. *)
Theorem single_inference_per_request (p : pipeline) (f : form) :
  predict_calls (trace (on_predict p f)) = [build_input_df f] /\
  proba_calls (trace (on_predict p f))
    = match predict p (build_input_df f), predict_proba p with
      | Ret (_ :: _), Some _ => [build_input_df f]
      | _, _ => []
      end.
Proof.
  unfold on_predict, predict_step, call_predict, call_predict_proba.
  simpl.
  destruct (predict p (build_input_df f)) as [[| l ls] | e]; simpl;
    try (destruct (predict_proba p); split; reflexivity).
  destruct (predict_proba p) as [pp |]; simpl.
  - destruct (pp (build_input_df f)) as [[| [| p0 [| p1 r]] rows] | e];
      simpl; try destruct (is_Exception e); simpl;
      destruct (py_eq_1 l); split; reflexivity.
  - destruct (py_eq_1 l); split; reflexivity.
Qed.

(** X2.  Whatever the pipeline does, the handler first shows the
    "Input Summary" header and table, then runs the predict step, and its
    last act is the note of the [finally] block; it ends normally exactly
    when the predict step does, and otherwise with the step's exception. *)
Theorem summary_first_note_last (p : pipeline) (f : form) :
  trace (on_predict p f)
    = ([ StSubheader "Input Summary";
         StTable (input_summary f (build_input_df f)) ]
       ++ trace (predict_step p (build_input_df f))
       ++ [ StWrite "Prediction attempt finished." ])%list /\
  last (trace (on_predict p f)) (StSubheader "Input Summary")
    = StWrite "Prediction attempt finished." /\
  outcome (on_predict p f)
    = match outcome (predict_step p (build_input_df f)) with
      | Ret _ => Ret tt
      | Raise e => Raise e
      end.
Proof.
  assert (H : trace (on_predict p f)
    = ([ StSubheader "Input Summary";
         StTable (input_summary f (build_input_df f)) ]
       ++ trace (predict_step p (build_input_df f))
       ++ [ StWrite "Prediction attempt finished." ])%list /\
    outcome (on_predict p f)
    = match outcome (predict_step p (build_input_df f)) with
      | Ret _ => Ret tt
      | Raise e => Raise e
      end).
  { unfold on_predict.
    destruct (predict_step p (build_input_df f)) as [t [[pred proba] | e]];
      simpl; rewrite ?app_nil_r; split; reflexivity. }
  destruct H as [Ht Ho]. split; [exact Ht |]. split; [| exact Ho].
  rewrite Ht. rewrite app_assoc. apply last_last.
Qed.

(** X3.  A verdict banner is shown exactly on the runs of the handler that
    end normally: then [predict] has returned a first label and the one
    banner shown is the banner of that label; when the handler ends by an
    exception no banner at all is shown. *)
Theorem verdict_banner_iff_completion (p : pipeline) (f : form) :
  match outcome (on_predict p f) with
  | Ret _ =>
      exists label rest,
        predict p (build_input_df f) = Ret (label :: rest) /\
        banners (trace (on_predict p f)) = [banner_of label]
  | Raise _ => banners (trace (on_predict p f)) = []
  end.
Proof.
  unfold on_predict, predict_step, call_predict, call_predict_proba,
    banner_of.
  simpl.
  destruct (predict p (build_input_df f)) as [[| l ls] | e]; simpl;
    try reflexivity.
  destruct (predict_proba p) as [pp |]; simpl.
  - destruct (pp (build_input_df f)) as [[| [| p0 [| p1 r]] rows] | e];
      simpl; try destruct (is_Exception e); simpl;
      try (destruct (py_eq_1 l) eqn:E; simpl; exists l, ls; rewrite E;
           split; reflexivity).
    reflexivity.
  - destruct (py_eq_1 l) eqn:E; simpl; exists l, ls; rewrite E; split;
      reflexivity.
Qed.

(** X4.  When [predict_proba] returns something without a second column in
    its first row (no row at all, or a first row of fewer than two
    entries), the IndexError is swallowed like any other exception: the
    step ends normally with the label and no probability. *)
Theorem malformed_probabilities_are_dropped (p : pipeline) (X : DataFrame)
  (label : pyval) (labels : list pyval)
  (pp : DataFrame -> res (list (list float))) (rows : list (list float)) :
  predict p X = Ret (label :: labels) ->
  predict_proba p = Some pp ->
  pp X = Ret rows ->
  (length (hd [] rows) < 2)%nat ->
  outcome (predict_step p X) = Ret (label, None) /\
  banners (trace (predict_step p X)) = [banner_of label].
Proof.
  intros Hp Hc Hr Hlen.
  unfold predict_step, call_predict, call_predict_proba, banner_of.
  rewrite Hc. simpl. rewrite Hp. simpl. rewrite Hr. simpl.
  destruct rows as [| [| p0 [| p1 r]] rows']; simpl in *; try lia;
    destruct (py_eq_1 label); split; reflexivity.
Qed.

Lemma malformed_probabilities_are_dropped_witness :
  outcome (predict_step (stub_pipeline (Ret [PInt 1]) (Ret [[0.75%float]]))
             (build_input_df default_form))
  = Ret (PInt 1, None).
Proof.
  apply (malformed_probabilities_are_dropped
           (stub_pipeline (Ret [PInt 1]) (Ret [[0.75%float]]))
           (build_input_df default_form) (PInt 1) []
           (fun _ => Ret [[0.75%float]]) [[0.75%float]]);
    try reflexivity.
  simpl. lia.
Defined.

(** X5.  [except Exception] does not catch everything: when
    [predict_proba] raises an exception outside the Exception class
    (KeyboardInterrupt, SystemExit), it leaves the handler, after the note
    of the [finally] block and without any verdict banner, although
    [predict] had returned a label. *)
Theorem non_exception_from_predict_proba_propagates (p : pipeline) (f : form)
  (label : pyval) (labels : list pyval)
  (pp : DataFrame -> res (list (list float))) (e : exn) :
  predict p (build_input_df f) = Ret (label :: labels) ->
  predict_proba p = Some pp ->
  pp (build_input_df f) = Raise e ->
  is_Exception e = false ->
  outcome (on_predict p f) = Raise e /\
  banners (trace (on_predict p f)) = [] /\
  last (trace (on_predict p f)) (StSubheader "Input Summary")
    = StWrite "Prediction attempt finished.".
Proof.
  intros Hp Hc Hr He.
  unfold on_predict, predict_step, call_predict, call_predict_proba.
  rewrite Hc. simpl. rewrite Hp. simpl. rewrite Hr. simpl. rewrite He.
  simpl. repeat split; reflexivity.
Qed.

Lemma non_exception_from_predict_proba_propagates_witness :
  outcome (on_predict
             (stub_pipeline (Ret [PInt 1])
                            (Raise (BaseException "KeyboardInterrupt")))
             default_form)
  = Raise (BaseException "KeyboardInterrupt").
Proof.
  apply (non_exception_from_predict_proba_propagates
           (stub_pipeline (Ret [PInt 1])
                          (Raise (BaseException "KeyboardInterrupt")))
           default_form (PInt 1) []
           (fun _ => Raise (BaseException "KeyboardInterrupt"))
           (BaseException "KeyboardInterrupt"));
    reflexivity.
Defined.

(** X6.  With the artifact loaded, a run shows the page header and then
    does what the button says: pressed, it continues with the handler and
    ends as the handler ends; not pressed, it ends normally there, having
    called the pipeline not once and shown no table and no banner. *)
Theorem script_runs_handler_only_on_press (w : world) (p : pipeline) :
  artifact w = Ret p ->
  trace (script w)
    = (page_header
       ++ (if button w then trace (on_predict p (widgets w)) else []))%list /\
  outcome (script w)
    = (if button w then outcome (on_predict p (widgets w)) else Ret tt) /\
  (if button w then True
   else predictions (trace (script w)) = [] /\
        banners (trace (script w)) = []).
Proof.
  intros Ha.
  unfold script, load_pipeline, joblib_load, page_header. rewrite Ha. simpl.
  destruct (button w); simpl.
  - destruct (on_predict p (widgets w)) as [t r]. simpl.
    repeat split; reflexivity.
  - repeat split; reflexivity.
Qed.

Lemma script_runs_handler_only_on_press_witness :
  trace (script {| artifact := Ret churn_pipeline;
                   widgets := default_form; button := false |})
  = page_header.
Proof.
  apply (script_runs_handler_only_on_press
           {| artifact := Ret churn_pipeline;
              widgets := default_form; button := false |}
           churn_pipeline).
  reflexivity.
Defined.

(** ** The schema mapper, beyond the schema *)

(** X10.  On forms whose Senior Citizen choice is one of the two options
    offered, the mapper loses nothing: two forms with the same frame are
    the same form. *)
Theorem build_input_df_injective (f1 f2 : form) :
  In (senior_citizen f1) ["No"; "Yes"] ->
  In (senior_citizen f2) ["No"; "Yes"] ->
  build_input_df f1 = build_input_df f2 ->
  f1 = f2.
Proof.
  intros H1 H2 H.
  destruct f1, f2. simpl in H1, H2.
  unfold build_input_df, DataFrame_of_record, input_data in H. simpl in H.
  injection H as Hid Hg Hs Hp Hd Ht Hph Hml Hi Hos Hob Hdp Hts Htv Hmv Hc
    Hpb Hpm Hmc Htc.
  subst.
  assert (senior_citizen0 = senior_citizen1) as ->.
  { destruct H1 as [<- | [<- | []]]; destruct H2 as [<- | [<- | []]];
      simpl in Hs; try reflexivity; discriminate. }
  reflexivity.
Qed.

Lemma build_input_df_injective_witness :
  with_customer_id "" default_form = default_form.
Proof.
  apply (build_input_df_injective (with_customer_id "" default_form)
           default_form).
  - simpl. tauto.
  - simpl. tauto.
  - reflexivity.
Defined.

(** ** Report file names, beyond the order *)

(** X7.  Two valid clock readings give the same report file name exactly
    when they fall in the same second: reports written within one second
    share a name, whatever their microseconds. *)
Theorem report_filename_collides_within_second (t1 t2 : datetime) :
  valid_datetime t1 -> valid_datetime t2 ->
  (report_filename t1 = report_filename t2 <-> to_seconds t1 = to_seconds t2).
Proof.
  intros V1 V2.
  pose proof (filename_compare_fields t1 t2 V1 V2) as Hf.
  rewrite (compare_fields_chronological t1 t2 V1 V2) in Hf.
  split; intros E.
  - rewrite E, compare_refl in Hf. symmetry in Hf.
    now apply Z.compare_eq_iff.
  - apply String.compare_eq_iff. rewrite Hf. now apply Z.compare_eq_iff.
Qed.

Lemma report_filename_collides_within_second_witness :
  report_filename sample_time = report_filename sample_time_late.
Proof.
  apply (report_filename_collides_within_second sample_time sample_time_late).
  - repeat split; vm_compute; first [reflexivity | discriminate].
  - repeat split; vm_compute; first [reflexivity | discriminate].
  - reflexivity.
Defined.

(** ** Start-up, beyond the handled failure *)

(** X11.  The load guard catches the Exception class only: when unpickling
    raises anything else (KeyboardInterrupt, SystemExit), that exception
    leaves the script as it is; no error message is shown, the page is not
    drawn and the pipeline is not called. *)
Theorem load_interrupt_is_not_reported (w : world) (e : exn) :
  artifact w = Raise e ->
  is_Exception e = false ->
  outcome (script w) = Raise e /\
  trace (script w) = [ JoblibLoad "churnmodel_fix.pkl" ].
Proof.
  intros Ha He.
  unfold script, load_pipeline, joblib_load. rewrite Ha. simpl.
  rewrite He. split; reflexivity.
Qed.

Lemma load_interrupt_is_not_reported_witness :
  outcome (script {| artifact := Raise (BaseException "KeyboardInterrupt");
                     widgets := default_form; button := true |})
  = Raise (BaseException "KeyboardInterrupt").
Proof.
  apply (load_interrupt_is_not_reported
           {| artifact := Raise (BaseException "KeyboardInterrupt");
              widgets := default_form; button := true |}
           (BaseException "KeyboardInterrupt")); reflexivity.
Defined.
